(** * mrpt_tutorials: demo_localization_pf_mvsim_2d_lidar.launch.py

    A shallow embedding of the ROS 2 launch file
    [mrpt_tutorials/launch/demo_localization_pf_mvsim_2d_lidar.launch.py]
    and the properties of the launch description it builds.

    The launch file has one function, [generate_launch_description].  It
    calls two library functions, [get_package_share_directory] (ament index)
    and [os.path.join] (POSIX flavour, the platform ROS 2 launch files of
    this package are installed on), and builds four launch actions out of
    the strings they return.

    - [posixpath] embeds [os.path.join] with the string tests it uses.
    - [Launch] has the launch data the file constructs: include actions,
      node actions and the launch description.
    - [Run] is the effect of the function body: the library calls it makes,
      in evaluation order, and either the exception that ended it or its
      value.  The package index is a parameter [resolve] of the embedding. *)

From Stdlib Require Import String Ascii List Bool Arith Lia.
Import ListNotations.

Local Open Scope string_scope.
Local Open Scope list_scope.

Set Implicit Arguments.

(** ** os.path.join *)

Module posixpath.

(** [sep = '/'] *)
Definition sep : string := "/".

(** [s.startswith(prefix)] *)
Definition startswith (s prefix : string) : bool := String.prefix prefix s.

(** [s.endswith(suffix)]: [s] is [suffix], or the tail of [s] ends with it. *)
Fixpoint endswith (s suffix : string) : bool :=
  (s =? suffix)%string
  || match s with
     | EmptyString => false
     | String _ s' => endswith s' suffix
     end.

(** The loop of [join(a, *p)]:
<<
    path = a
    for b in p:
        if b.startswith(sep):
            path = b
        elif not path or path.endswith(sep):
            path += b
        else:
            path += sep + b
    return path
>> *)
Fixpoint join_loop (path : string) (p : list string) : string :=
  match p with
  | [] => path
  | b :: p' =>
      if startswith b sep then join_loop b p'
      else if (path =? "")%string || endswith path sep
           then join_loop (path ++ b)%string p'
           else join_loop (path ++ (sep ++ b))%string p'
  end.

Definition join (a : string) (p : list string) : string := join_loop a p.

End posixpath.

(** ** Launch data *)

Module Launch.

(** [PythonLaunchDescriptionSource(location)]; the location is given as a
    list of text pieces. *)
Inductive LaunchDescriptionSource : Type :=
| PythonLaunchDescriptionSource (location : list string).

(** [IncludeLaunchDescription(source, launch_arguments=d.items())]: the
    items of a dict literal, in insertion order. *)
Record IncludeLaunchDescription : Type := {
  launch_description_source : LaunchDescriptionSource;
  launch_arguments : list (string * string)
}.

(** An element of a node's [parameters] list: a path to a parameter file
    or a dict of parameter values. *)
Inductive SomeParameters : Type :=
| ParameterFile (path : string)
| ParametersDict (entries : list (string * string)).

(** An element of a node's [arguments] list: a text or a list of texts
    (which launch concatenates when it performs the substitution). *)
Inductive SomeSubstitutionsType : Type :=
| Text (s : string)
| TextList (parts : list string).

(** [Node(package=, executable=, name=, output=, parameters=, arguments=)];
    a keyword the call does not pass is [None]. *)
Record Node : Type := {
  package : string;
  executable : string;
  name : string;
  output : option string;
  parameters : option (list SomeParameters);
  arguments : option (list SomeSubstitutionsType)
}.

Inductive Action : Type :=
| IncludeAction (i : IncludeLaunchDescription)
| NodeAction (n : Node).

(** [LaunchDescription(entities)] *)
Record LaunchDescription : Type := {
  entities : list Action
}.

Definition is_include (a : Action) : bool :=
  match a with IncludeAction _ => true | NodeAction _ => false end.

Definition is_node (a : Action) : bool :=
  match a with IncludeAction _ => false | NodeAction _ => true end.

(** The keys of a list of dict items. *)
Definition keys (items : list (string * string)) : list string :=
  map fst items.

(** Python's [d[k]] on the items: the value of the last entry for [k]. *)
Fixpoint lookup (k : string) (items : list (string * string)) : option string :=
  match items with
  | [] => None
  | (k', v) :: rest =>
      match lookup k rest with
      | Some v' => Some v'
      | None => if (k =? k')%string then Some v else None
      end
  end.

(** What launch hands to the process for one element of [arguments]: a
    list of texts is concatenated. *)
Definition perform (s : SomeSubstitutionsType) : string :=
  match s with
  | Text t => t
  | TextList parts => String.concat "" parts
  end.

End Launch.

Import Launch.

(** ** Library calls and the effect of the function body *)

(** A call the launch file makes into a library. *)
Inductive Call : Type :=
| SharePackage (package_name : string)
| PathJoin (a : string) (p : list string).







Section Run.

(** The exceptions of the libraries. *)
Variable exn : Type.

(** A run: the calls made so far, and the exception raised or the value. *)
Definition Run (A : Type) : Type := (list Call * (exn + A))%type.

Definition ret (A : Type) (a : A) : Run A := ([], inr a).

(** Sequencing: an exception ends the run, nothing after it is called. *)
Definition bind (A B : Type) (m : Run A) (k : A -> Run B) : Run B :=
  match m with
  | (t, inl e) => (t, inl e)
  | (t, inr a) => let (t', r) := k a in (t ++ t', r)
  end.

Definition trace (A : Type) (m : Run A) : list Call := fst m.

Definition result (A : Type) (m : Run A) : exn + A := snd m.

End Run.

Arguments ret {exn A} a.
Arguments bind {exn A B} m k.
Arguments trace {exn A} m.
Arguments result {exn A} m.

Notation "x <- m ;; k" := (bind m (fun x => k))
  (at level 61, m at next level, right associativity).

(** ** The launch file *)

Section LaunchFile.

Variable exn : Type.

(** The package index: for a package name, its share directory, or the
    exception the lookup raises. *)
Variable resolve : string -> exn + string.

Definition get_package_share_directory (package_name : string) : Run exn string :=
  ([SharePackage package_name], resolve package_name).

Definition os_path_join (a : string) (p : list string) : Run exn string :=
  ([PathJoin a p], inr (posixpath.join a p)).

(** The body of [generate_launch_description], call by call in Python's
    evaluation order (positional argument before keyword argument, list
    and dict elements left to right). *)
Definition generate_launch_description : Run exn LaunchDescription :=
  tutsDir <- get_package_share_directory "mrpt_tutorials" ;;
  pf_share <- get_package_share_directory "mrpt_pf_localization" ;;
  pf_location <- os_path_join pf_share ["launch"; "localization.launch.py"] ;;
  metricmap_file <- os_path_join tutsDir [""; ""] ;;
  let pf_localization_launch :=
    IncludeAction
      {| launch_description_source := PythonLaunchDescriptionSource [pf_location];
         launch_arguments :=
           [("mrpt_metricmap_file", metricmap_file); ("log_level", "INFO")] |} in
  map_share <- get_package_share_directory "mrpt_map" ;;
  map_location <- os_path_join map_share ["launch"; "mrpt_map_server.launch.py"] ;;
  map_yaml_file <- os_path_join tutsDir ["maps"; "demo_world2.yaml"] ;;
  let mrpt_map_launch :=
    IncludeAction
      {| launch_description_source := PythonLaunchDescriptionSource [map_location];
         launch_arguments := [("map_yaml_file", map_yaml_file)] |} in
  params_file <- os_path_join tutsDir ["params"; "mvsim_ros2_params.yaml"] ;;
  world_file <- os_path_join tutsDir ["mvsim"; "demo_world2.world.xml"] ;;
  let mvsim_node :=
    NodeAction
      {| package := "mvsim";
         executable := "mvsim_node";
         name := "mvsim";
         output := Some "screen";
         parameters :=
           Some [ParameterFile params_file;
                 ParametersDict [("world_file", world_file)]];
         arguments := None |} in
  rviz_config <- os_path_join tutsDir ["rviz2"; "gridmap.rviz"] ;;
  let rviz2_node :=
    NodeAction
      {| package := "rviz2";
         executable := "rviz2";
         name := "rviz2";
         output := None;
         parameters := None;
         arguments := Some [Text "-d"; TextList [rviz_config]] |} in
  ret {| entities :=
           [pf_localization_launch; mvsim_node; rviz2_node; mrpt_map_launch] |}.

(** The packages the function looks up, in call order. *)
Definition looked_up : list string :=
  ["mrpt_tutorials"; "mrpt_pf_localization"; "mrpt_map"].

End LaunchFile.

(** ** Reading a launch description *)

(** The include action at position [i] of the description, if there is one. *)
Definition include_at (ld : LaunchDescription) (i : nat)
  : option IncludeLaunchDescription :=
  match nth_error (entities ld) i with
  | Some (IncludeAction x) => Some x
  | _ => None
  end.

(** The node action at position [i] of the description, if there is one. *)
Definition node_at (ld : LaunchDescription) (i : nat) : option Node :=
  match nth_error (entities ld) i with
  | Some (NodeAction n) => Some n
  | _ => None
  end.

(** The three lookups of the function return these directories. *)
Definition resolves (exn : Type) (resolve : string -> exn + string)
    (tutsDir pf_share map_share : string) : Prop :=
  resolve "mrpt_tutorials" = inr tutsDir
  /\ resolve "mrpt_pf_localization" = inr pf_share
  /\ resolve "mrpt_map" = inr map_share.

(** A call that returned: every path join, and a lookup of a package the
    index has. *)
Definition returned (exn : Type) (resolve : string -> exn + string)
    (c : Call) : Prop :=
  match c with
  | SharePackage package_name => exists dir, resolve package_name = inr dir
  | PathJoin _ _ => True
  end.

(** ** Package indexes to run the launch file on *)

(** The exception of ament's lookup for a package that is not installed. *)
Inductive AmentError : Type :=
| PackageNotFoundError (package_name : string).

(** An index that has [mrpt_tutorials] at [tuts] and each package of
    [installed] under [/opt/ros/share]. *)
Definition index (tuts : string) (installed : list string)
    (package_name : string) : AmentError + string :=
  if (package_name =? "mrpt_tutorials")%string then inr tuts
  else if existsb (String.eqb package_name) installed
       then inr ("/opt/ros/share/" ++ package_name)%string
       else inl (PackageNotFoundError package_name).

Definition demo_index : string -> AmentError + string :=
  index "/opt/ros/share/mrpt_tutorials" ["mrpt_pf_localization"; "mrpt_map"].

(** [demo_index] with every share directory written with a trailing
    separator. *)
Definition demo_index_slash (package_name : string) : AmentError + string :=
  match demo_index package_name with
  | inr dir => inr (dir ++ posixpath.sep)%string
  | inl e => inl e
  end.

(** An index with the same [mrpt_tutorials] as [demo_index] and the other
    packages in an overlay under [/home/user/ws/install]. *)
Definition overlay_index (package_name : string) : AmentError + string :=
  if (package_name =? "mrpt_tutorials")%string
  then inr "/opt/ros/share/mrpt_tutorials"
  else inr ("/home/user/ws/install/" ++ package_name ++ "/share/"
              ++ package_name)%string.

(** ** Notions for the statements on paths and calls *)

(** What the loop of [join] puts between [path] and a relative component
    appended to it: nothing when [path] is empty or ends in a separator, a
    separator otherwise (the test of its [elif]). *)
Definition joint (path : string) : string :=
  if (path =? "")%string || posixpath.endswith path posixpath.sep
  then "" else posixpath.sep.

(** A call as the launch file is meant to make them: a lookup of one of its
    three packages, or a join of relative components onto a directory that
    the index returned for one of them. *)
Definition well_based (exn : Type) (resolve : string -> exn + string)
    (c : Call) : Prop :=
  match c with
  | SharePackage package_name => In package_name looked_up
  | PathJoin a p =>
      (exists package_name,
          In package_name looked_up /\ resolve package_name = inr a)
      /\ Forall (fun b => posixpath.startswith b posixpath.sep = false) p
  end.


(** The share directory of a package as [ament_index_python] returns it:
    [os.path.join(get_package_prefix(package_name), 'share', package_name)]. *)
Definition ament_share_directory (install_prefix package_name : string)
  : string :=
  posixpath.join install_prefix ["share"; package_name].

(** ** Running the launch file *)

(** Unfolds the function body along the three lookups of [H : resolves _ _ _ _]. *)
Ltac run_launch H :=
  let Ht := fresh "Htuts" in
  let Hp := fresh "Hpf" in
  let Hm := fresh "Hmap" in
  destruct H as (Ht & Hp & Hm);
  unfold generate_launch_description, get_package_share_directory,
    os_path_join, bind, ret, result, trace;
  rewrite Ht; cbv beta iota;
  rewrite Hp; cbv beta iota;
  rewrite Hm; cbv beta iota;
  cbn [fst snd app].

(** Closes the side conditions on the components of a join. *)
Ltac relative_components :=
  assumption || reflexivity || discriminate.

(** ** Facts about [os.path.join] *)

Module posixpath_facts.

Import posixpath.

Lemma append_empty_r (s : string) : (s ++ "")%string = s.
Proof.
  induction s as [|c s IH]; simpl; [reflexivity | now rewrite IH].
Qed.

Lemma append_assoc (a b c : string) :
  ((a ++ b) ++ c)%string = (a ++ (b ++ c))%string.
Proof.
  induction a as [|x a IH]; simpl; [reflexivity | now rewrite IH].
Qed.

Lemma append_nonempty (a : string) (c : ascii) (b : string) :
  (a ++ String c b)%string <> "".
Proof.
  destruct a; simpl; discriminate.
Qed.

Lemma append_eq_empty (a b : string) :
  (a ++ b)%string = "" -> a = "" /\ b = "".
Proof.
  destruct a; simpl; [auto | discriminate].
Qed.

(** The last character decides [endswith _ sep]. *)
Lemma endswith_sep_app (a : string) (c : ascii) (b : string) :
  endswith (a ++ String c b) sep = endswith (String c b) sep.
Proof.
  induction a as [|x a IH]; [reflexivity|].
  change (endswith (String x a ++ String c b) sep)
    with (((String x (a ++ String c b)) =? sep)%string
          || endswith (a ++ String c b) sep).
  rewrite IH.
  replace ((String x (a ++ String c b)) =? sep)%string with false;
    [reflexivity|].
  symmetry. apply String.eqb_neq. unfold sep. intros H.
  injection H as _ H. now apply append_nonempty in H.
Qed.

Lemma endswith_sep_app_sep (a : string) :
  endswith (a ++ sep) sep = true.
Proof.
  unfold sep at 1. rewrite endswith_sep_app. reflexivity.
Qed.

Lemma endswith_empty_sep : endswith "" sep = false.
Proof. reflexivity. Qed.

(** [join(a, '', '')] in each of its three cases. *)
Lemma join_empty_empty_of_empty : join "" [""; ""] = "".
Proof. reflexivity. Qed.

Lemma join_empty_empty_of_dir (a : string) :
  endswith a sep = true -> join a [""; ""] = a.
Proof.
  intros H. unfold join. simpl.
  rewrite H, orb_true_r, append_empty_r.
  rewrite H, orb_true_r, append_empty_r. reflexivity.
Qed.

Lemma join_empty_empty_of_file (a : string) :
  a <> "" -> endswith a sep = false ->
  join a [""; ""] = (a ++ sep)%string.
Proof.
  intros Hne H. unfold join. simpl.
  apply String.eqb_neq in Hne. rewrite Hne, H. simpl.
  change (a ++ "/")%string with (a ++ sep)%string.
  rewrite endswith_sep_app_sep, orb_true_r, append_empty_r. reflexivity.
Qed.

Lemma join_empty_empty_endswith_sep (a : string) :
  a <> "" -> endswith (join a [""; ""]) sep = true.
Proof.
  intros Hne. destruct (endswith a sep) eqn:H.
  - now rewrite join_empty_empty_of_dir.
  - rewrite join_empty_empty_of_file by assumption.
    apply endswith_sep_app_sep.
Qed.

(** [join(a, b, c)] for relative components [b] and [c] under a directory
    [a] that is written without a trailing separator. *)
Lemma join_relative (a b c : string) :
  a <> "" -> endswith a sep = false ->
  startswith b sep = false -> b <> "" -> endswith b sep = false ->
  startswith c sep = false ->
  join a [b; c] = (a ++ sep ++ b ++ sep ++ c)%string.
Proof.
  intros Ha Hae Hb Hbn Hbe Hc. unfold join. simpl.
  rewrite Hb, Hc. apply String.eqb_neq in Ha. rewrite Ha, Hae. simpl.
  destruct b as [|x b]; [congruence|].
  change (a ++ String "/" (String x b))%string
    with (a ++ (sep ++ String x b))%string.
  rewrite <- append_assoc, endswith_sep_app, Hbe.
  replace (((a ++ sep) ++ String x b) =? "")%string with false.
  - cbn [orb]. rewrite !append_assoc. reflexivity.
  - symmetry. apply String.eqb_neq. apply append_nonempty.
Qed.

End posixpath_facts.

(** ** Paths for every share directory *)

Module joint_facts.

Import posixpath posixpath_facts.

Lemma joint_empty : joint "" = "".
Proof. reflexivity. Qed.

Lemma joint_of_dir (a : string) : endswith a sep = true -> joint a = "".
Proof.
  intros H. unfold joint. now rewrite H, orb_true_r.
Qed.

Lemma joint_of_file (a : string) :
  a <> "" -> endswith a sep = false -> joint a = sep.
Proof.
  intros Hne H. unfold joint. apply String.eqb_neq in Hne.
  now rewrite Hne, H.
Qed.

(** [join(a, '', '')] is [a] followed by its joint. *)
Lemma join_empty_empty (a : string) :
  join a [""; ""] = (a ++ joint a)%string.
Proof.
  destruct a as [|x a]; [reflexivity|].
  destruct (endswith (String x a) sep) eqn:H.
  - rewrite join_empty_empty_of_dir, joint_of_dir by assumption.
    now rewrite append_empty_r.
  - rewrite join_empty_empty_of_file, joint_of_file
      by (assumption || discriminate).
    reflexivity.
Qed.

(** [join(a, b, c)] for relative [b] and [c], whatever [a] is. *)
Lemma join_relative_any (a b c : string) :
  startswith b sep = false -> b <> "" -> endswith b sep = false ->
  startswith c sep = false ->
  join a [b; c] = (a ++ joint a ++ b ++ sep ++ c)%string.
Proof.
  intros Hb Hbn Hbe Hc.
  destruct b as [|x b]; [congruence|].
  unfold join, joint. cbn [join_loop]. rewrite Hb, Hc.
  destruct ((a =? "")%string || endswith a sep).
  - rewrite endswith_sep_app, Hbe.
    replace ((a ++ String x b) =? "")%string with false
      by (symmetry; apply String.eqb_neq, append_nonempty).
    cbn [orb]. rewrite append_assoc. reflexivity.
  - change (a ++ (sep ++ String x b))%string
      with (a ++ String "/" (String x b))%string.
    rewrite endswith_sep_app.
    change (endswith (String "/" (String x b)) sep)
      with (endswith (String x b) sep).
    rewrite Hbe.
    replace ((a ++ String "/" (String x b)) =? "")%string with false
      by (symmetry; apply String.eqb_neq, append_nonempty).
    cbn [orb]. rewrite append_assoc. reflexivity.
Qed.

(** Written with a trailing separator, a directory joins as before. *)
Lemma joint_trailing_sep (a : string) :
  a <> "" -> endswith a sep = false ->
  ((a ++ sep) ++ joint (a ++ sep))%string = (a ++ joint a)%string.
Proof.
  intros Hne H.
  rewrite (joint_of_dir (a ++ sep)) by apply endswith_sep_app_sep.
  rewrite (joint_of_file Hne H). apply append_empty_r.
Qed.

(** A path that ends with a relative name ends as the name does. *)
Lemma relative_tail (a j : string) (c : ascii) (b : string) :
  (a ++ j ++ String c b)%string <> ""
  /\ endswith (a ++ j ++ String c b) sep = endswith (String c b) sep.
Proof.
  rewrite <- append_assoc.
  split; [apply append_nonempty | apply endswith_sep_app].
Qed.

End joint_facts.

(** ** The launch description and its actions *)

(** With the three packages in the index the function returns. *)
Lemma generate_launch_description_returns (exn : Type)
    (resolve : string -> exn + string) (tutsDir pf_share map_share : string) :
  resolves resolve tutsDir pf_share map_share ->
  exists ld, result (generate_launch_description resolve) = inr ld.
Proof.
  intros H. run_launch H. eexists. reflexivity.
Qed.

(** C1: whatever directories the package index returns, the launch
    description that [generate_launch_description] returns has exactly four
    actions: two included launch descriptions and two nodes. *)
Theorem generate_launch_description_four_actions (exn : Type)
    (resolve : string -> exn + string) (tutsDir pf_share map_share : string) :
  resolves resolve tutsDir pf_share map_share ->
  exists ld,
    result (generate_launch_description resolve) = inr ld
    /\ length (entities ld) = 4
    /\ length (filter is_include (entities ld)) = 2
    /\ length (filter is_node (entities ld)) = 2.
Proof.
  intros H. run_launch H.
  eexists. split; [reflexivity|]. cbn. auto.
Qed.

Lemma generate_launch_description_four_actions_witness :
  resolves demo_index
    "/opt/ros/share/mrpt_tutorials" "/opt/ros/share/mrpt_pf_localization"
    "/opt/ros/share/mrpt_map"
  /\ exists ld,
       result (generate_launch_description demo_index) = inr ld
       /\ length (entities ld) = 4
       /\ length (filter is_include (entities ld)) = 2
       /\ length (filter is_node (entities ld)) = 2.
Proof.
  assert (H : resolves demo_index
                "/opt/ros/share/mrpt_tutorials"
                "/opt/ros/share/mrpt_pf_localization"
                "/opt/ros/share/mrpt_map")
    by (repeat split; reflexivity).
  split; [exact H|].
  exact (generate_launch_description_four_actions H).
Defined.

(** C2: the map-server include (the include of
    [<mrpt_map share>/launch/mrpt_map_server.launch.py]) has the launch
    argument [map_yaml_file] equal to
    [os.path.join(tutsDir, 'maps', 'demo_world2.yaml')], which for a share
    directory written without a trailing separator is
    [<tutsDir>/maps/demo_world2.yaml]. *)
Theorem mrpt_map_launch_map_yaml_file (exn : Type)
    (resolve : string -> exn + string) (tutsDir pf_share map_share : string) :
  resolves resolve tutsDir pf_share map_share ->
  exists ld i,
    result (generate_launch_description resolve) = inr ld
    /\ include_at ld 3 = Some i
    /\ launch_description_source i
       = PythonLaunchDescriptionSource
           [posixpath.join map_share ["launch"; "mrpt_map_server.launch.py"]]
    /\ lookup "map_yaml_file" (launch_arguments i)
       = Some (posixpath.join tutsDir ["maps"; "demo_world2.yaml"])
    /\ (tutsDir <> "" -> posixpath.endswith tutsDir posixpath.sep = false ->
        lookup "map_yaml_file" (launch_arguments i)
        = Some (tutsDir ++ "/maps/demo_world2.yaml")%string).
Proof.
  intros H. run_launch H.
  do 2 eexists. split; [reflexivity|]. split; [reflexivity|].
  split; [reflexivity|]. split; [reflexivity|].
  intros Hne Hsep. cbn [launch_arguments lookup String.eqb Ascii.eqb Bool.eqb].
  rewrite posixpath_facts.join_relative by (assumption || reflexivity || discriminate).
  reflexivity.
Qed.

Lemma mrpt_map_launch_map_yaml_file_witness :
  exists ld i,
    result (generate_launch_description demo_index) = inr ld
    /\ include_at ld 3 = Some i
    /\ launch_description_source i
       = PythonLaunchDescriptionSource
           ["/opt/ros/share/mrpt_map/launch/mrpt_map_server.launch.py"]
    /\ lookup "map_yaml_file" (launch_arguments i)
       = Some "/opt/ros/share/mrpt_tutorials/maps/demo_world2.yaml".
Proof.
  destruct (@mrpt_map_launch_map_yaml_file AmentError demo_index
              "/opt/ros/share/mrpt_tutorials"
              "/opt/ros/share/mrpt_pf_localization"
              "/opt/ros/share/mrpt_map")
    as (ld & i & Hld & Hi & Hsrc & Harg & _).
  - repeat split; reflexivity.
  - exists ld, i. repeat split; assumption.
Defined.

(** C3: the mvsim node has, in its parameters, the parameter file
    [os.path.join(tutsDir, 'params', 'mvsim_ros2_params.yaml')] and next to
    it the parameter [world_file] equal to
    [os.path.join(tutsDir, 'mvsim', 'demo_world2.world.xml')]. *)
Theorem mvsim_node_parameters (exn : Type)
    (resolve : string -> exn + string) (tutsDir pf_share map_share : string) :
  resolves resolve tutsDir pf_share map_share ->
  exists ld n,
    result (generate_launch_description resolve) = inr ld
    /\ node_at ld 1 = Some n
    /\ package n = "mvsim" /\ executable n = "mvsim_node"
    /\ parameters n
       = Some [ParameterFile
                 (posixpath.join tutsDir ["params"; "mvsim_ros2_params.yaml"]);
               ParametersDict
                 [("world_file",
                   posixpath.join tutsDir ["mvsim"; "demo_world2.world.xml"])]]
    /\ (tutsDir <> "" -> posixpath.endswith tutsDir posixpath.sep = false ->
        parameters n
        = Some [ParameterFile (tutsDir ++ "/params/mvsim_ros2_params.yaml")%string;
                ParametersDict
                  [("world_file",
                    (tutsDir ++ "/mvsim/demo_world2.world.xml")%string)]]).
Proof.
  intros H. run_launch H.
  do 2 eexists. split; [reflexivity|]. split; [reflexivity|].
  split; [reflexivity|]. split; [reflexivity|]. split; [reflexivity|].
  intros Hne Hsep. cbn [parameters].
  rewrite !posixpath_facts.join_relative
    by (assumption || reflexivity || discriminate).
  reflexivity.
Qed.

Lemma mvsim_node_parameters_witness :
  exists ld n,
    result (generate_launch_description demo_index) = inr ld
    /\ node_at ld 1 = Some n
    /\ parameters n
       = Some [ParameterFile
                 "/opt/ros/share/mrpt_tutorials/params/mvsim_ros2_params.yaml";
               ParametersDict
                 [("world_file",
                   "/opt/ros/share/mrpt_tutorials/mvsim/demo_world2.world.xml")]].
Proof.
  destruct (@mvsim_node_parameters AmentError demo_index
              "/opt/ros/share/mrpt_tutorials"
              "/opt/ros/share/mrpt_pf_localization"
              "/opt/ros/share/mrpt_map")
    as (ld & n & Hld & Hn & _ & _ & Hpar & _).
  - repeat split; reflexivity.
  - exists ld, n. repeat split; assumption.
Defined.

(** C4: the rviz2 node has the arguments ['-d'] followed by
    [os.path.join(tutsDir, 'rviz2', 'gridmap.rviz')] (given as a one-element
    list of texts, which is performed to that path). *)
Theorem rviz2_node_arguments (exn : Type)
    (resolve : string -> exn + string) (tutsDir pf_share map_share : string) :
  resolves resolve tutsDir pf_share map_share ->
  exists ld n,
    result (generate_launch_description resolve) = inr ld
    /\ node_at ld 2 = Some n
    /\ package n = "rviz2" /\ executable n = "rviz2"
    /\ arguments n
       = Some [Text "-d";
               TextList [posixpath.join tutsDir ["rviz2"; "gridmap.rviz"]]]
    /\ option_map (map perform) (arguments n)
       = Some ["-d"; posixpath.join tutsDir ["rviz2"; "gridmap.rviz"]]
    /\ (tutsDir <> "" -> posixpath.endswith tutsDir posixpath.sep = false ->
        option_map (map perform) (arguments n)
        = Some ["-d"; (tutsDir ++ "/rviz2/gridmap.rviz")%string]).
Proof.
  intros H. run_launch H.
  do 2 eexists. split; [reflexivity|]. split; [reflexivity|].
  split; [reflexivity|]. split; [reflexivity|]. split; [reflexivity|].
  split; [reflexivity|].
  intros Hne Hsep. cbn [arguments option_map map perform String.concat].
  rewrite posixpath_facts.join_relative
    by (assumption || reflexivity || discriminate).
  reflexivity.
Qed.

Lemma rviz2_node_arguments_witness :
  exists ld n,
    result (generate_launch_description demo_index) = inr ld
    /\ node_at ld 2 = Some n
    /\ option_map (map perform) (arguments n)
       = Some ["-d"; "/opt/ros/share/mrpt_tutorials/rviz2/gridmap.rviz"].
Proof.
  destruct (@rviz2_node_arguments AmentError demo_index
              "/opt/ros/share/mrpt_tutorials"
              "/opt/ros/share/mrpt_pf_localization"
              "/opt/ros/share/mrpt_map")
    as (ld & n & Hld & Hn & _ & _ & _ & Hargs & _).
  - repeat split; reflexivity.
  - exists ld, n. repeat split; assumption.
Defined.

(** C5: each of the four actions carries exactly the keyword parameters of
    the interface.  The localization include (of
    [<mrpt_pf_localization share>/launch/localization.launch.py]) has
    exactly the launch arguments [mrpt_metricmap_file] and [log_level], with
    [log_level] the string ['INFO']; the map-server include (of
    [<mrpt_map share>/launch/mrpt_map_server.launch.py]) has exactly
    [map_yaml_file]; the simulator node ([mvsim_node] of package [mvsim],
    output to the screen) has the parameter file path and [world_file] and
    no arguments; the visualizer node ([rviz2]) has ['-d'] and the config
    file path as arguments, no parameters and no output setting. *)
Theorem actions_keyword_parameters (exn : Type)
    (resolve : string -> exn + string) (tutsDir pf_share map_share : string) :
  resolves resolve tutsDir pf_share map_share ->
  exists ld pf_localization_launch mvsim_node rviz2_node mrpt_map_launch,
    result (generate_launch_description resolve) = inr ld
    /\ entities ld
       = [IncludeAction pf_localization_launch; NodeAction mvsim_node;
          NodeAction rviz2_node; IncludeAction mrpt_map_launch]
    /\ pf_localization_launch
       = {| launch_description_source :=
              PythonLaunchDescriptionSource
                [posixpath.join pf_share ["launch"; "localization.launch.py"]];
            launch_arguments :=
              [("mrpt_metricmap_file", posixpath.join tutsDir [""; ""]);
               ("log_level", "INFO")] |}
    /\ keys (launch_arguments pf_localization_launch)
       = ["mrpt_metricmap_file"; "log_level"]
    /\ lookup "log_level" (launch_arguments pf_localization_launch)
       = Some "INFO"
    /\ mrpt_map_launch
       = {| launch_description_source :=
              PythonLaunchDescriptionSource
                [posixpath.join map_share
                   ["launch"; "mrpt_map_server.launch.py"]];
            launch_arguments :=
              [("map_yaml_file",
                posixpath.join tutsDir ["maps"; "demo_world2.yaml"])] |}
    /\ keys (launch_arguments mrpt_map_launch) = ["map_yaml_file"]
    /\ mvsim_node
       = {| package := "mvsim";
            executable := "mvsim_node";
            name := "mvsim";
            output := Some "screen";
            parameters :=
              Some [ParameterFile
                      (posixpath.join tutsDir
                         ["params"; "mvsim_ros2_params.yaml"]);
                    ParametersDict
                      [("world_file",
                        posixpath.join tutsDir
                          ["mvsim"; "demo_world2.world.xml"])]];
            arguments := None |}
    /\ rviz2_node
       = {| package := "rviz2";
            executable := "rviz2";
            name := "rviz2";
            output := None;
            parameters := None;
            arguments :=
              Some [Text "-d";
                    TextList
                      [posixpath.join tutsDir ["rviz2"; "gridmap.rviz"]]] |}.
Proof.
  intros H. run_launch H.
  do 5 eexists. split; [reflexivity|]. split; [reflexivity|].
  repeat split.
Qed.

Lemma actions_keyword_parameters_witness :
  exists ld pf_localization_launch mvsim_node rviz2_node mrpt_map_launch,
    result (generate_launch_description demo_index) = inr ld
    /\ entities ld
       = [IncludeAction pf_localization_launch; NodeAction mvsim_node;
          NodeAction rviz2_node; IncludeAction mrpt_map_launch]
    /\ launch_arguments pf_localization_launch
       = [("mrpt_metricmap_file", "/opt/ros/share/mrpt_tutorials/");
          ("log_level", "INFO")]
    /\ launch_arguments mrpt_map_launch
       = [("map_yaml_file",
           "/opt/ros/share/mrpt_tutorials/maps/demo_world2.yaml")]
    /\ output mvsim_node = Some "screen"
    /\ parameters mvsim_node
       = Some [ParameterFile
                 "/opt/ros/share/mrpt_tutorials/params/mvsim_ros2_params.yaml";
               ParametersDict
                 [("world_file",
                   "/opt/ros/share/mrpt_tutorials/mvsim/demo_world2.world.xml")]]
    /\ arguments rviz2_node
       = Some [Text "-d";
               TextList ["/opt/ros/share/mrpt_tutorials/rviz2/gridmap.rviz"]].
Proof.
  destruct (@actions_keyword_parameters AmentError demo_index
              "/opt/ros/share/mrpt_tutorials"
              "/opt/ros/share/mrpt_pf_localization"
              "/opt/ros/share/mrpt_map")
    as (ld & a & b & c & d & Hld & Hent & Ha & _ & _ & Hd & _ & Hb & Hc).
  - repeat split; reflexivity.
  - exists ld, a, b, c, d.
    split; [exact Hld|]. split; [exact Hent|].
    rewrite Ha, Hb, Hc, Hd. repeat split.
Defined.




(** C7: there is no handler around the lookups.  When the index raises for
    one of the packages the function looks up, the function ends with the
    exception of the first lookup that raised, as it was raised; it returns
    no launch description, and that lookup is its last call: every call
    before it returned, and nothing is called after it (no second try). *)
Theorem resolution_failure_propagates (exn : Type)
    (resolve : string -> exn + string) :
  (exists package_name e,
      In package_name looked_up /\ resolve package_name = inl e) ->
  exists package_name e calls,
    In package_name looked_up
    /\ resolve package_name = inl e
    /\ result (generate_launch_description resolve) = inl e
    /\ (forall ld, result (generate_launch_description resolve) <> inr ld)
    /\ trace (generate_launch_description resolve)
       = calls ++ [SharePackage package_name]
    /\ Forall (returned resolve) calls.
Proof.
  intros (p & e & Hin & He).
  unfold generate_launch_description, get_package_share_directory,
    os_path_join, bind, ret, result, trace, looked_up in *.
  destruct (resolve "mrpt_tutorials") as [e1|tutsDir] eqn:Htuts.
  { exists "mrpt_tutorials", e1, [].
    cbn. repeat split; auto. discriminate. }
  cbv beta iota.
  destruct (resolve "mrpt_pf_localization") as [e2|pf_share] eqn:Hpf.
  { exists "mrpt_pf_localization", e2, [SharePackage "mrpt_tutorials"].
    cbn. repeat split; auto; try discriminate.
    repeat constructor. cbn. eauto. }
  cbv beta iota.
  destruct (resolve "mrpt_map") as [e3|map_share] eqn:Hmap.
  { exists "mrpt_map", e3,
      [SharePackage "mrpt_tutorials"; SharePackage "mrpt_pf_localization";
       PathJoin pf_share ["launch"; "localization.launch.py"];
       PathJoin tutsDir [""; ""]].
    cbn. repeat split; auto; try discriminate.
    repeat constructor; cbn; eauto. }
  exfalso. cbn in Hin.
  destruct Hin as [<-|[<-|[<-|[]]]]; congruence.
Qed.

Lemma resolution_failure_propagates_witness :
  result (generate_launch_description
            (index "/opt/ros/share/mrpt_tutorials" ["mrpt_pf_localization"]))
  = inl (PackageNotFoundError "mrpt_map").
Proof.
  destruct (@resolution_failure_propagates AmentError
              (index "/opt/ros/share/mrpt_tutorials" ["mrpt_pf_localization"]))
    as (p & e & calls & Hin & He & Hres & _).
  - exists "mrpt_map", (PackageNotFoundError "mrpt_map").
    split; [cbn; auto | reflexivity].
  - rewrite Hres. cbn in Hin.
    destruct Hin as [<-|[<-|[<-|[]]]]; vm_compute in He;
      [discriminate He | discriminate He | now injection He as <-].
Defined.

(** A share directory as the ament index writes it is neither empty nor
    written with a trailing separator, whatever the install prefix. *)
Lemma ament_share_directory_plain (install_prefix package_name : string) :
  In package_name looked_up ->
  ament_share_directory install_prefix package_name <> ""
  /\ posixpath.endswith (ament_share_directory install_prefix package_name)
       posixpath.sep = false.
Proof.
  intros Hin. unfold ament_share_directory.
  cbn in Hin. destruct Hin as [<-|[<-|[<-|[]]]];
    rewrite joint_facts.join_relative_any by relative_components.
  - exact (joint_facts.relative_tail install_prefix (joint install_prefix)
             "s" "hare/mrpt_tutorials").
  - exact (joint_facts.relative_tail install_prefix (joint install_prefix)
             "s" "hare/mrpt_pf_localization").
  - exact (joint_facts.relative_tail install_prefix (joint install_prefix)
             "s" "hare/mrpt_map").
Qed.

(** C8: for every share directory [tutsDir] that the lookup of
    [mrpt_tutorials] returns (a share directory is never the empty path),
    the localization include's [mrpt_metricmap_file] is
    [os.path.join(tutsDir, '', '')]: the share directory itself with a
    trailing separator, that is [tutsDir + '/'] when [tutsDir] does not
    already end in a separator and [tutsDir] when it does; it is no path to
    a file inside the directory. *)
Theorem pf_localization_metricmap_file (exn : Type)
    (resolve : string -> exn + string) (tutsDir pf_share map_share : string) :
  tutsDir <> "" ->
  resolves resolve tutsDir pf_share map_share ->
  exists ld i value,
    result (generate_launch_description resolve) = inr ld
    /\ include_at ld 0 = Some i
    /\ launch_description_source i
       = PythonLaunchDescriptionSource
           [posixpath.join pf_share ["launch"; "localization.launch.py"]]
    /\ lookup "mrpt_metricmap_file" (launch_arguments i) = Some value
    /\ value = posixpath.join tutsDir [""; ""]
    /\ (posixpath.endswith tutsDir posixpath.sep = false ->
        value = (tutsDir ++ posixpath.sep)%string)
    /\ (posixpath.endswith tutsDir posixpath.sep = true -> value = tutsDir)
    /\ posixpath.endswith value posixpath.sep = true.
Proof.
  intros Hne H. run_launch H.
  do 3 eexists. split; [reflexivity|]. split; [reflexivity|].
  split; [reflexivity|]. split; [reflexivity|]. split; [reflexivity|].
  split; [|split].
  - intros Hsep. now apply posixpath_facts.join_empty_empty_of_file.
  - intros Hsep. now apply posixpath_facts.join_empty_empty_of_dir.
  - now apply posixpath_facts.join_empty_empty_endswith_sep.
Qed.

Lemma pf_localization_metricmap_file_witness :
  exists ld i,
    result (generate_launch_description demo_index) = inr ld
    /\ include_at ld 0 = Some i
    /\ lookup "mrpt_metricmap_file" (launch_arguments i)
       = Some "/opt/ros/share/mrpt_tutorials/".
Proof.
  destruct (@pf_localization_metricmap_file AmentError demo_index
              "/opt/ros/share/mrpt_tutorials"
              "/opt/ros/share/mrpt_pf_localization"
              "/opt/ros/share/mrpt_map")
    as (ld & i & value & Hld & Hi & _ & Harg & _ & Hfile & _).
  - discriminate.
  - repeat split; reflexivity.
  - exists ld, i. split; [exact Hld|]. split; [exact Hi|].
    rewrite Harg. f_equal. apply Hfile. reflexivity.
Defined.

(** C9: the returned launch description lists its actions in this order:
    the localization include, the mvsim node, the rviz2 node, the map-server
    include. *)
Theorem actions_order (exn : Type)
    (resolve : string -> exn + string) (tutsDir pf_share map_share : string) :
  resolves resolve tutsDir pf_share map_share ->
  exists ld pf_localization_launch mvsim_node rviz2_node mrpt_map_launch,
    result (generate_launch_description resolve) = inr ld
    /\ entities ld
       = [IncludeAction pf_localization_launch; NodeAction mvsim_node;
          NodeAction rviz2_node; IncludeAction mrpt_map_launch]
    /\ launch_description_source pf_localization_launch
       = PythonLaunchDescriptionSource
           [posixpath.join pf_share ["launch"; "localization.launch.py"]]
    /\ (package mvsim_node = "mvsim" /\ executable mvsim_node = "mvsim_node"
        /\ name mvsim_node = "mvsim")
    /\ (package rviz2_node = "rviz2" /\ executable rviz2_node = "rviz2"
        /\ name rviz2_node = "rviz2")
    /\ launch_description_source mrpt_map_launch
       = PythonLaunchDescriptionSource
           [posixpath.join map_share ["launch"; "mrpt_map_server.launch.py"]].
Proof.
  intros H. run_launch H.
  do 5 eexists. split; [reflexivity|]. split; [reflexivity|].
  cbn. repeat split.
Qed.

Lemma actions_order_witness :
  exists ld,
    result (generate_launch_description demo_index) = inr ld
    /\ map is_include (entities ld) = [true; false; false; true]
    /\ map (fun a => match a with
                     | NodeAction n => Some (executable n)
                     | IncludeAction _ => None
                     end) (entities ld)
       = [None; Some "mvsim_node"; Some "rviz2"; None].
Proof.
  destruct (@actions_order AmentError demo_index
              "/opt/ros/share/mrpt_tutorials"
              "/opt/ros/share/mrpt_pf_localization"
              "/opt/ros/share/mrpt_map")
    as (ld & a & b & c & d & Hld & Hent & _ & (_ & Hb & _) & (_ & Hc & _) & _).
  - repeat split; reflexivity.
  - exists ld. split; [exact Hld|]. rewrite Hent. cbn. rewrite Hb, Hc.
    split; reflexivity.
Defined.

(** The run of [generate_launch_description], its calls and its outcome,
    depends on the package index only through the three packages it looks
    up: two indexes that agree on them give the same run. *)
Theorem generate_launch_description_deterministic (exn : Type)
    (resolve1 resolve2 : string -> exn + string) :
  (forall package_name,
      In package_name looked_up -> resolve1 package_name = resolve2 package_name) ->
  generate_launch_description resolve1 = generate_launch_description resolve2.
Proof.
  intros H.
  unfold generate_launch_description, get_package_share_directory.
  rewrite <- (H "mrpt_tutorials") by (cbn; auto).
  rewrite <- (H "mrpt_pf_localization") by (cbn; auto).
  rewrite <- (H "mrpt_map") by (cbn; auto).
  reflexivity.
Qed.

Lemma generate_launch_description_deterministic_witness :
  index "/opt/ros/share/mrpt_tutorials"
    ["mrpt_pf_localization"; "mrpt_map"] "mvsim"
  <> index "/opt/ros/share/mrpt_tutorials"
       ["mrpt_pf_localization"; "mrpt_map"; "mvsim"] "mvsim"
  /\ generate_launch_description
       (index "/opt/ros/share/mrpt_tutorials"
          ["mrpt_pf_localization"; "mrpt_map"])
     = generate_launch_description
         (index "/opt/ros/share/mrpt_tutorials"
            ["mrpt_pf_localization"; "mrpt_map"; "mvsim"]).
Proof.
  split; [discriminate|].
  apply generate_launch_description_deterministic.
  intros p Hin. cbn in Hin.
  destruct Hin as [<-|[<-|[<-|[]]]]; reflexivity.
Defined.

(** ** Further properties of the launch file *)

(** X1: the function returns a launch description exactly when the index
    has the three packages it looks up; the packages of the two nodes
    ([mvsim], [rviz2]) need not be in the index. *)
Theorem returns_iff_looked_up_installed (exn : Type)
    (resolve : string -> exn + string) :
  (exists ld, result (generate_launch_description resolve) = inr ld)
  <-> (forall package_name,
          In package_name looked_up ->
          exists dir, resolve package_name = inr dir).
Proof.
  split.
  - intros (ld & Hld) p Hin.
    unfold generate_launch_description, get_package_share_directory,
      os_path_join, bind, ret, result in Hld.
    destruct (resolve "mrpt_tutorials") as [e1|tutsDir] eqn:Htuts;
      [discriminate Hld|].
    cbv beta iota in Hld.
    destruct (resolve "mrpt_pf_localization") as [e2|pf_share] eqn:Hpf;
      [discriminate Hld|].
    cbv beta iota in Hld.
    destruct (resolve "mrpt_map") as [e3|map_share] eqn:Hmap;
      [discriminate Hld|].
    cbn in Hin. destruct Hin as [<-|[<-|[<-|[]]]]; eauto.
  - intros H.
    destruct (H "mrpt_tutorials") as (tutsDir & Htuts); [cbn; auto|].
    destruct (H "mrpt_pf_localization") as (pf_share & Hpf); [cbn; auto|].
    destruct (H "mrpt_map") as (map_share & Hmap); [cbn; auto|].
    assert (Hres : resolves resolve tutsDir pf_share map_share)
      by (repeat split; assumption).
    run_launch Hres. eexists. reflexivity.
Qed.

(** X2: for every share directory [tutsDir] of [mrpt_tutorials], the five
    tutorial paths handed to the actions are [tutsDir], its joint, and the
    relative name: with [tutsDir] empty they are relative paths, with a
    trailing separator in [tutsDir] no separator is doubled. *)
Theorem tutorials_paths_any_share_directory (exn : Type)
    (resolve : string -> exn + string) (tutsDir pf_share map_share : string) :
  resolves resolve tutsDir pf_share map_share ->
  exists ld pf_localization_launch mvsim_node rviz2_node mrpt_map_launch,
    result (generate_launch_description resolve) = inr ld
    /\ entities ld
       = [IncludeAction pf_localization_launch; NodeAction mvsim_node;
          NodeAction rviz2_node; IncludeAction mrpt_map_launch]
    /\ launch_arguments pf_localization_launch
       = [("mrpt_metricmap_file", (tutsDir ++ joint tutsDir)%string);
          ("log_level", "INFO")]
    /\ launch_arguments mrpt_map_launch
       = [("map_yaml_file",
           (tutsDir ++ joint tutsDir ++ "maps/demo_world2.yaml")%string)]
    /\ parameters mvsim_node
       = Some [ParameterFile
                 (tutsDir ++ joint tutsDir ++ "params/mvsim_ros2_params.yaml")%string;
               ParametersDict
                 [("world_file",
                   (tutsDir ++ joint tutsDir ++ "mvsim/demo_world2.world.xml")%string)]]
    /\ arguments rviz2_node
       = Some [Text "-d";
               TextList [(tutsDir ++ joint tutsDir ++ "rviz2/gridmap.rviz")%string]].
Proof.
  intros H. run_launch H.
  do 5 eexists. split; [reflexivity|]. split; [reflexivity|].
  cbn [launch_arguments parameters arguments].
  rewrite joint_facts.join_empty_empty.
  rewrite !joint_facts.join_relative_any by relative_components.
  repeat split.
Qed.

Lemma tutorials_paths_any_share_directory_witness :
  exists ld pf_localization_launch mvsim_node rviz2_node mrpt_map_launch,
    result (generate_launch_description
              (index "" ["mrpt_pf_localization"; "mrpt_map"])) = inr ld
    /\ entities ld
       = [IncludeAction pf_localization_launch; NodeAction mvsim_node;
          NodeAction rviz2_node; IncludeAction mrpt_map_launch]
    /\ launch_arguments mrpt_map_launch
       = [("map_yaml_file", "maps/demo_world2.yaml")].
Proof.
  destruct (@tutorials_paths_any_share_directory AmentError
              (index "" ["mrpt_pf_localization"; "mrpt_map"])
              "" "/opt/ros/share/mrpt_pf_localization"
              "/opt/ros/share/mrpt_map")
    as (ld & a & b & c & d & Hld & Hent & _ & Hmap & _).
  - repeat split; reflexivity.
  - exists ld, a, b, c, d. repeat split; assumption.
Defined.

(** X3: for every share directory of [mrpt_pf_localization] and of
    [mrpt_map], the launch files included are [launch/localization.launch.py]
    and [launch/mrpt_map_server.launch.py] under it, each location a list of
    one text. *)
Theorem include_locations_any_share_directory (exn : Type)
    (resolve : string -> exn + string) (tutsDir pf_share map_share : string) :
  resolves resolve tutsDir pf_share map_share ->
  exists ld pf_localization_launch mrpt_map_launch,
    result (generate_launch_description resolve) = inr ld
    /\ include_at ld 0 = Some pf_localization_launch
    /\ include_at ld 3 = Some mrpt_map_launch
    /\ launch_description_source pf_localization_launch
       = PythonLaunchDescriptionSource
           [(pf_share ++ joint pf_share ++ "launch/localization.launch.py")%string]
    /\ launch_description_source mrpt_map_launch
       = PythonLaunchDescriptionSource
           [(map_share ++ joint map_share
               ++ "launch/mrpt_map_server.launch.py")%string].
Proof.
  intros H. run_launch H.
  do 3 eexists. split; [reflexivity|].
  split; [reflexivity|]. split; [reflexivity|].
  cbn [launch_description_source].
  rewrite !joint_facts.join_relative_any by relative_components.
  split; reflexivity.
Qed.

Lemma include_locations_any_share_directory_witness :
  exists ld pf_localization_launch mrpt_map_launch,
    result (generate_launch_description demo_index_slash) = inr ld
    /\ include_at ld 0 = Some pf_localization_launch
    /\ include_at ld 3 = Some mrpt_map_launch
    /\ launch_description_source pf_localization_launch
       = PythonLaunchDescriptionSource
           ["/opt/ros/share/mrpt_pf_localization/launch/localization.launch.py"]
    /\ launch_description_source mrpt_map_launch
       = PythonLaunchDescriptionSource
           ["/opt/ros/share/mrpt_map/launch/mrpt_map_server.launch.py"].
Proof.
  exact (@include_locations_any_share_directory AmentError demo_index_slash
           "/opt/ros/share/mrpt_tutorials/"
           "/opt/ros/share/mrpt_pf_localization/"
           "/opt/ros/share/mrpt_map/"
           (conj eq_refl (conj eq_refl eq_refl))).
Defined.

(** X4: the directory handed to the localization as [mrpt_metricmap_file],
    followed by the relative name of a tutorial file, is the path handed to
    the action that takes this file; this holds for every share directory. *)
Theorem metricmap_directory_locates_tutorial_files (exn : Type)
    (resolve : string -> exn + string) (tutsDir pf_share map_share : string) :
  resolves resolve tutsDir pf_share map_share ->
  exists ld pf_localization_launch mvsim_node rviz2_node mrpt_map_launch dir,
    result (generate_launch_description resolve) = inr ld
    /\ entities ld
       = [IncludeAction pf_localization_launch; NodeAction mvsim_node;
          NodeAction rviz2_node; IncludeAction mrpt_map_launch]
    /\ lookup "mrpt_metricmap_file" (launch_arguments pf_localization_launch)
       = Some dir
    /\ lookup "map_yaml_file" (launch_arguments mrpt_map_launch)
       = Some (dir ++ "maps/demo_world2.yaml")%string
    /\ parameters mvsim_node
       = Some [ParameterFile (dir ++ "params/mvsim_ros2_params.yaml")%string;
               ParametersDict
                 [("world_file", (dir ++ "mvsim/demo_world2.world.xml")%string)]]
    /\ arguments rviz2_node
       = Some [Text "-d"; TextList [(dir ++ "rviz2/gridmap.rviz")%string]].
Proof.
  intros H. run_launch H.
  do 6 eexists. split; [reflexivity|]. split; [reflexivity|].
  split; [reflexivity|].
  cbn [launch_arguments parameters arguments lookup
         String.eqb Ascii.eqb Bool.eqb].
  rewrite joint_facts.join_empty_empty.
  rewrite !joint_facts.join_relative_any by relative_components.
  rewrite !posixpath_facts.append_assoc.
  repeat split.
Qed.

Lemma metricmap_directory_locates_tutorial_files_witness :
  exists ld pf_localization_launch mvsim_node rviz2_node mrpt_map_launch dir,
    result (generate_launch_description demo_index_slash) = inr ld
    /\ entities ld
       = [IncludeAction pf_localization_launch; NodeAction mvsim_node;
          NodeAction rviz2_node; IncludeAction mrpt_map_launch]
    /\ lookup "mrpt_metricmap_file" (launch_arguments pf_localization_launch)
       = Some dir
    /\ lookup "map_yaml_file" (launch_arguments mrpt_map_launch)
       = Some (dir ++ "maps/demo_world2.yaml")%string.
Proof.
  destruct (@metricmap_directory_locates_tutorial_files AmentError
              demo_index_slash
              "/opt/ros/share/mrpt_tutorials/"
              "/opt/ros/share/mrpt_pf_localization/"
              "/opt/ros/share/mrpt_map/")
    as (ld & a & b & c & d & dir & Hld & Hent & Hdir & Hmap & _).
  - repeat split; reflexivity.
  - exists ld, a, b, c, d, dir. repeat split; assumption.
Defined.

(** X5: a trailing separator on the share directories makes no difference:
    an index that returns each directory with one separator appended gives
    the same launch description as the index that returns them without. *)
Theorem trailing_separator_irrelevant (exn : Type)
    (resolve1 resolve2 : string -> exn + string)
    (tutsDir pf_share map_share : string) :
  tutsDir <> "" -> posixpath.endswith tutsDir posixpath.sep = false ->
  pf_share <> "" -> posixpath.endswith pf_share posixpath.sep = false ->
  map_share <> "" -> posixpath.endswith map_share posixpath.sep = false ->
  resolves resolve1 tutsDir pf_share map_share ->
  resolves resolve2 (tutsDir ++ posixpath.sep)%string
    (pf_share ++ posixpath.sep)%string (map_share ++ posixpath.sep)%string ->
  result (generate_launch_description resolve1)
  = result (generate_launch_description resolve2).
Proof.
  intros Ht Hts Hp Hps Hm Hms (Ht1 & Hp1 & Hm1) (Ht2 & Hp2 & Hm2).
  unfold generate_launch_description, get_package_share_directory,
    os_path_join, bind, ret, result.
  rewrite Ht1, Ht2; cbv beta iota.
  rewrite Hp1, Hp2; cbv beta iota.
  rewrite Hm1, Hm2; cbv beta iota.
  cbn [snd].
  rewrite !joint_facts.join_empty_empty.
  rewrite !joint_facts.join_relative_any by relative_components.
  rewrite <- !posixpath_facts.append_assoc.
  rewrite !joint_facts.joint_trailing_sep by assumption.
  reflexivity.
Qed.

Lemma trailing_separator_irrelevant_witness :
  result (generate_launch_description demo_index)
  = result (generate_launch_description demo_index_slash).
Proof.
  apply (@trailing_separator_irrelevant AmentError demo_index demo_index_slash
           "/opt/ros/share/mrpt_tutorials"
           "/opt/ros/share/mrpt_pf_localization"
           "/opt/ros/share/mrpt_map");
    try discriminate; try reflexivity; repeat split; reflexivity.
Defined.

(** X6: where [mrpt_pf_localization] and [mrpt_map] are installed decides
    only which launch files are included.  Two indexes with the same
    [mrpt_tutorials] directory give the same two nodes and the same launch
    arguments for both includes. *)
Theorem arguments_depend_on_tutorials_only (exn : Type)
    (resolve1 resolve2 : string -> exn + string)
    (tutsDir pf_share1 map_share1 pf_share2 map_share2 : string) :
  resolves resolve1 tutsDir pf_share1 map_share1 ->
  resolves resolve2 tutsDir pf_share2 map_share2 ->
  exists pf1 pf2 mvsim_node rviz2_node map1 map2,
    result (generate_launch_description resolve1)
    = inr {| entities := [IncludeAction pf1; NodeAction mvsim_node;
                          NodeAction rviz2_node; IncludeAction map1] |}
    /\ result (generate_launch_description resolve2)
       = inr {| entities := [IncludeAction pf2; NodeAction mvsim_node;
                             NodeAction rviz2_node; IncludeAction map2] |}
    /\ launch_arguments pf1 = launch_arguments pf2
    /\ launch_arguments map1 = launch_arguments map2.
Proof.
  intros (Ht1 & Hp1 & Hm1) (Ht2 & Hp2 & Hm2).
  unfold generate_launch_description, get_package_share_directory,
    os_path_join, bind, ret, result.
  rewrite Ht1, Ht2; cbv beta iota.
  rewrite Hp1, Hp2; cbv beta iota.
  rewrite Hm1, Hm2; cbv beta iota.
  cbn [snd].
  do 6 eexists. split; [reflexivity|]. split; [reflexivity|].
  split; reflexivity.
Qed.

Lemma arguments_depend_on_tutorials_only_witness :
  demo_index "mrpt_map" <> overlay_index "mrpt_map"
  /\ exists pf1 pf2 mvsim_node rviz2_node map1 map2,
       result (generate_launch_description demo_index)
       = inr {| entities := [IncludeAction pf1; NodeAction mvsim_node;
                             NodeAction rviz2_node; IncludeAction map1] |}
       /\ result (generate_launch_description overlay_index)
          = inr {| entities := [IncludeAction pf2; NodeAction mvsim_node;
                                NodeAction rviz2_node; IncludeAction map2] |}
       /\ launch_arguments pf1 = launch_arguments pf2
       /\ launch_arguments map1 = launch_arguments map2.
Proof.
  split; [discriminate|].
  apply (@arguments_depend_on_tutorials_only AmentError
           demo_index overlay_index
           "/opt/ros/share/mrpt_tutorials"
           "/opt/ros/share/mrpt_pf_localization" "/opt/ros/share/mrpt_map"
           "/home/user/ws/install/mrpt_pf_localization/share/mrpt_pf_localization"
           "/home/user/ws/install/mrpt_map/share/mrpt_map");
    repeat split; reflexivity.
Defined.

(** X7: in every run, also one that ends in an exception, each lookup is of
    one of the three packages, and each join puts relative components (none
    starts with a separator) onto a directory the index returned for one of
    them: no join discards its base directory, none starts from a literal
    or from a joined path. *)
Theorem calls_well_based (exn : Type) (resolve : string -> exn + string) :
  Forall (well_based resolve) (trace (generate_launch_description resolve)).
Proof.
  unfold generate_launch_description, get_package_share_directory,
    os_path_join, bind, ret, trace.
  destruct (resolve "mrpt_tutorials") as [e1|tutsDir] eqn:Htuts.
  { cbn [fst]. repeat (apply Forall_cons || apply Forall_nil).
    cbn; auto. }
  cbv beta iota.
  destruct (resolve "mrpt_pf_localization") as [e2|pf_share] eqn:Hpf.
  { cbn [fst app]. repeat (apply Forall_cons || apply Forall_nil);
      cbn; auto. }
  cbv beta iota.
  assert (Bt : exists p, In p looked_up /\ resolve p = inr tutsDir)
    by (exists "mrpt_tutorials"; cbn; auto).
  assert (Bp : exists p, In p looked_up /\ resolve p = inr pf_share)
    by (exists "mrpt_pf_localization"; cbn; auto).
  destruct (resolve "mrpt_map") as [e3|map_share] eqn:Hmap.
  { cbn [fst app].
    repeat (apply Forall_cons || apply Forall_nil);
      cbn [well_based looked_up In]; auto;
      (split; [assumption | repeat constructor]). }
  assert (Bm : exists p, In p looked_up /\ resolve p = inr map_share)
    by (exists "mrpt_map"; cbn; auto).
  cbv beta iota. cbn [fst app].
  repeat (apply Forall_cons || apply Forall_nil);
    cbn [well_based looked_up In]; auto;
    (split; [assumption | repeat constructor]).
Qed.
